(** * Settings resolution of the Moira checker (cmd/checker/config.go)

    A shallow embedding of [handleParallelChecks], [getSettings] and
    [getDefault], and the properties of the resolution pipeline that the
    design document states about them.

    Conventions of the embedding:
    - Go's [int], [int64] and [time.Duration] are [Z]; the code performs no
      arithmetic on them beyond what [time.Duration.Seconds] does, so no
      wrap-around can occur in the functions embedded here.
    - Go's [float64] is the kernel's binary64 [float] (IEEE 754, round to
      nearest even), so [Seconds] computes bit for bit what the Go code does.
    - [map[string]string] is [gmap string string]; a slice is a [list].
    - [getSettings] has a pointer receiver and writes through pointers into
      it, and it calls the logger: both effects are threaded through a small
      state monad over [world]. *)

From Stdlib Require Import ZArith Floats Uint63 Lia.
From stdpp Require Import gmap strings list fin_maps.

Local Open Scope Z_scope.

(** ** Go's [time] package, as far as [getSettings] uses it *)

Module time.

(** [type Duration int64], a count of nanoseconds. *)
Definition Duration : Type := Z.

Definition Nanosecond : Duration := 1.
Definition Microsecond : Duration := 1000 * Nanosecond.
Definition Millisecond : Duration := 1000 * Microsecond.
Definition Second : Duration := 1000 * Millisecond.
Definition Minute : Duration := 60 * Second.
Definition Hour : Duration := 60 * Minute.

(** [float64(x)] for an [int64] whose magnitude is below [2^63]. *)
Definition float64_of_int64 (z : Z) : float :=
  if z <? 0 then PrimFloat.opp (PrimFloat.of_uint63 (Uint63.of_Z (- z)))
  else PrimFloat.of_uint63 (Uint63.of_Z z).

(** [int64(f)] for a finite [float64] within the range of [int64]: the
    fractional part is discarded (truncation toward zero). *)
Definition int64_of_float64 (f : float) : Z :=
  match Prim2SF f with
  | S754_finite s m e =>
      let mag := if 0 <=? e then Z.shiftl (Z.pos m) e
                 else Z.shiftr (Z.pos m) (- e) in
      if s then - mag else mag
  | _ => 0
  end.

(** [func (d Duration) Seconds() float64]:
    [sec := d / Second; nsec := d % Second;
     return float64(sec) + float64(nsec)/1e9].
    Go's [/] and [%] on integers truncate toward zero ([Z.quot], [Z.rem]). *)
Definition Seconds (d : Duration) : float :=
  let sec := Z.quot d Second in
  let nsec := Z.rem d Second in
  PrimFloat.add (float64_of_int64 sec)
                (PrimFloat.div (float64_of_int64 nsec)
                               (float64_of_int64 1000000000)).

End time.

(** ** The logger capability ([moira.Logger]), as an append-only sink *)

Module logger.

Inductive level : Type := DebugLevel | InfoLevel | WarningLevel | ErrorLevel.

(** An event under construction and, once [Msg] is called, a record of
    the sink: its level, its integer fields in the order they were added,
    and its message. *)
Record Event : Type := mkEvent {
  ev_level : level;
  ev_ints : list (string * Z);
  ev_msg : string
}.

(** [logger.Info()] *)
Definition Info : Event := mkEvent InfoLevel [] "".

(** [event.Int(key, value)] *)
Definition Int (key : string) (value : Z) (e : Event) : Event :=
  mkEvent (ev_level e) (ev_ints e ++ [(key, value)]) (ev_msg e).

(** The record that [event.Msg(message)] hands to the sink. *)
Definition withMsg (message : string) (e : Event) : Event :=
  mkEvent (ev_level e) (ev_ints e) message.

End logger.

(** ** The raw configuration (types of config.go) *)

Record triggerLogConfig : Type := mkTriggerLogConfig {
  ID : string;
  Level : string
}.

Record triggersLogConfig : Type := mkTriggersLogConfig {
  TriggersToLevel : list triggerLogConfig
}.

Record checkerConfig : Type := mkCheckerConfig {
  NoDataCheckInterval : string;
  StopCheckingInterval : string;
  CheckInterval : string;
  LazyTriggersCheckInterval : string;
  MaxParallelChecks : Z;
  MaxParallelRemoteChecks : Z;
  MaxParallelPrometheusChecks : Z;
  SetLogLevel : triggersLogConfig;
  MetricEventPopBatchSize : Z;
  MetricEventPopDelay : string
}.

(** The sections of package [cmd] that [getDefault] fills in. Their types
    are declared outside config.go; only the fields that [getDefault] names
    are kept (every other field has Go's zero value there). The fields
    [CheckInterval], [Timeout] and [MetricsTTL] of the remote and Prometheus
    sections and [Enabled] of the profiler carry the name of their section,
    since one module holds them all. *)
Module cmd.

Record RedisConfig : Type := mkRedisConfig {
  Addrs : string;
  MetricsTTL : string;
  DialTimeout : string
}.

Record LoggerConfig : Type := mkLoggerConfig {
  LogFile : string;
  LogLevel : string;
  LogPrettyFormat : bool
}.

Record GraphiteConfig : Type := mkGraphiteConfig {
  Enabled : bool;
  RuntimeStats : bool;
  URI : string;
  Prefix : string;
  Interval : string
}.

Record ProfilerConfig : Type := mkProfilerConfig {
  ProfilerEnabled : bool
}.

Record TelemetryConfig : Type := mkTelemetryConfig {
  Listen : string;
  Graphite : GraphiteConfig;
  Pprof : ProfilerConfig
}.

Record RemoteConfig : Type := mkRemoteConfig {
  RemoteCheckInterval : string;
  RemoteTimeout : string;
  RemoteMetricsTTL : string
}.

Record PrometheusConfig : Type := mkPrometheusConfig {
  PrometheusCheckInterval : string;
  PrometheusTimeout : string;
  PrometheusMetricsTTL : string;
  Retries : Z;
  RetryTimeout : string
}.

End cmd.

Record config : Type := mkConfig {
  Redis : cmd.RedisConfig;
  Logger : cmd.LoggerConfig;
  Checker : checkerConfig;
  Telemetry : cmd.TelemetryConfig;
  Remote : cmd.RemoteConfig;
  Prometheus : cmd.PrometheusConfig
}.

(** ** The resolved settings ([checker.Config]) *)

Module checker.

Record Config : Type := mkConfig {
  CheckInterval : time.Duration;
  LazyTriggersCheckInterval : time.Duration;
  NoDataCheckInterval : time.Duration;
  StopCheckingIntervalSeconds : Z;
  MaxParallelLocalChecks : Z;
  MaxParallelRemoteChecks : Z;
  MaxParallelPrometheusChecks : Z;
  LogTriggersToLevel : gmap string string;
  MetricEventPopBatchSize : Z;
  MetricEventPopDelay : time.Duration
}.

End checker.

(** ** Pointers into the receiver

    [handleParallelChecks] receives [&config.MaxParallelChecks] and its two
    siblings: a pointer is the name of the [int] field it addresses. Go's
    [nil] is [None]. *)

Inductive intField : Type :=
  | fMaxParallelChecks
  | fMaxParallelRemoteChecks
  | fMaxParallelPrometheusChecks.

#[export] Instance intField_eq_dec : EqDecision intField.
Proof. solve_decision. Defined.

(** The three pointers that [getSettings] takes, in the order of its calls. *)
Definition concurrencyFields : list intField :=
  [fMaxParallelChecks; fMaxParallelRemoteChecks; fMaxParallelPrometheusChecks].

Definition deref (p : intField) (c : checkerConfig) : Z :=
  match p with
  | fMaxParallelChecks => MaxParallelChecks c
  | fMaxParallelRemoteChecks => MaxParallelRemoteChecks c
  | fMaxParallelPrometheusChecks => MaxParallelPrometheusChecks c
  end.

Definition assign (p : intField) (v : Z) (c : checkerConfig) : checkerConfig :=
  match p with
  | fMaxParallelChecks =>
      mkCheckerConfig (NoDataCheckInterval c) (StopCheckingInterval c)
        (CheckInterval c) (LazyTriggersCheckInterval c)
        v (MaxParallelRemoteChecks c) (MaxParallelPrometheusChecks c)
        (SetLogLevel c) (MetricEventPopBatchSize c) (MetricEventPopDelay c)
  | fMaxParallelRemoteChecks =>
      mkCheckerConfig (NoDataCheckInterval c) (StopCheckingInterval c)
        (CheckInterval c) (LazyTriggersCheckInterval c)
        (MaxParallelChecks c) v (MaxParallelPrometheusChecks c)
        (SetLogLevel c) (MetricEventPopBatchSize c) (MetricEventPopDelay c)
  | fMaxParallelPrometheusChecks =>
      mkCheckerConfig (NoDataCheckInterval c) (StopCheckingInterval c)
        (CheckInterval c) (LazyTriggersCheckInterval c)
        (MaxParallelChecks c) (MaxParallelRemoteChecks c) v
        (SetLogLevel c) (MetricEventPopBatchSize c) (MetricEventPopDelay c)
  end.

(** ** The state that resolution runs in

    The memory of the receiver ([config *checkerConfig]) and what the logger
    has been handed so far, oldest record first. *)

Record world : Type := mkWorld {
  receiver : checkerConfig;
  sink : list logger.Event
}.

Definition M (A : Type) : Type := world -> A * world.

#[export] Instance M_ret : MRet M := fun A (a : A) (w : world) => (a, w).

#[export] Instance M_bind : MBind M :=
  fun A B (k : A -> M B) (m : M A) (w : world) =>
    let (a, w') := m w in k a w'.

(** Reading the receiver. *)
Definition this : M checkerConfig := fun w => (receiver w, w).

(** [*p] *)
Definition load (p : intField) : M Z := fun w => (deref p (receiver w), w).

(** [*p = v] *)
Definition store (p : intField) (v : Z) : M unit :=
  fun w => (tt, mkWorld (assign p v (receiver w)) (sink w)).

(** [event.Msg(message)]: the finished record is appended to the sink. *)
Definition Msg (message : string) (e : logger.Event) : M unit :=
  fun w => (tt, mkWorld (receiver w) (sink w ++ [logger.withMsg message e])).

(** ** The code of config.go *)

Section Resolution.

(** [runtime.NumCPU()], the number of logical processors of the host. *)
Variable NumCPU : Z.

(** [to.Duration] of github.com/xiam/to at a [string] argument: the
    conversion is declared outside this repository, and config.go uses its
    one result as a [time.Duration]. *)
Variable to_Duration : string -> time.Duration.

Definition handleParallelChecks (parallelChecks : option intField) : M bool :=
  match parallelChecks with
  | Some p =>
      v ← load p;
      if v =? 0 then
        store p NumCPU;;
        mret true
      else mret false
  | None => mret false
  end.

(** The loop [for _, v := range ... { logTriggersToLevel[v.ID] = v.Level }]
    over a map that starts empty. *)
Definition compileLogTriggersToLevel (l : list triggerLogConfig)
  : gmap string string :=
  foldl (fun m v => <[ID v := Level v]> m) ∅ l.

(** [len(m)] *)
Definition len (m : gmap string string) : Z := Z.of_nat (size m).

(** The [if handleParallelChecks(&config.F) { logger.Info()... }] block. *)
Definition resolveParallelChecks (p : intField) (message : string) : M unit :=
  substituted ← handleParallelChecks (Some p);
  if (substituted : bool) then
    n ← load p;
    Msg message (logger.Int "number_of_cpu" n logger.Info)
  else mret tt.

Definition getSettings : M checker.Config :=
  config ← this;
  let logTriggersToLevel :=
    compileLogTriggersToLevel (TriggersToLevel (SetLogLevel config)) in
  Msg "Found dynamic log rules in config for some triggers"
      (logger.Int "number_of_triggers" (len logTriggersToLevel) logger.Info);;
  resolveParallelChecks fMaxParallelChecks
    "MaxParallelChecks is not configured, set it to the number of CPU";;
  resolveParallelChecks fMaxParallelRemoteChecks
    "MaxParallelRemoteChecks is not configured, set it to the number of CPU";;
  resolveParallelChecks fMaxParallelPrometheusChecks
    "MaxParallelPrometheusChecks is not configured, set it to the number of CPU";;
  config ← this;
  mret {|
    checker.CheckInterval := to_Duration (CheckInterval config);
    checker.LazyTriggersCheckInterval :=
      to_Duration (LazyTriggersCheckInterval config);
    checker.NoDataCheckInterval := to_Duration (NoDataCheckInterval config);
    checker.StopCheckingIntervalSeconds :=
      time.int64_of_float64
        (time.Seconds (to_Duration (StopCheckingInterval config)));
    checker.MaxParallelLocalChecks := MaxParallelChecks config;
    checker.MaxParallelRemoteChecks := MaxParallelRemoteChecks config;
    checker.MaxParallelPrometheusChecks := MaxParallelPrometheusChecks config;
    checker.LogTriggersToLevel := logTriggersToLevel;
    (* int64(config.MetricEventPopBatchSize): int to int64 keeps the value *)
    checker.MetricEventPopBatchSize := MetricEventPopBatchSize config;
    checker.MetricEventPopDelay := to_Duration (MetricEventPopDelay config)
  |}.

End Resolution.

(** [getDefault]. Fields that the literal leaves out hold Go's zero value:
    [0] for an [int], the empty string, the [nil] slice. *)
Definition getDefault : config := {|
  Redis := {|
    cmd.Addrs := "localhost:6379";
    cmd.MetricsTTL := "1h";
    cmd.DialTimeout := "500ms"
  |};
  Logger := {|
    cmd.LogFile := "stdout";
    cmd.LogLevel := "info";
    cmd.LogPrettyFormat := false
  |};
  Checker := {|
    NoDataCheckInterval := "60s";
    CheckInterval := "5s";
    LazyTriggersCheckInterval := "10m";
    StopCheckingInterval := "30s";
    MaxParallelChecks := 0;
    MaxParallelRemoteChecks := 0;
    (* left out of the literal: zero values *)
    MaxParallelPrometheusChecks := 0;
    SetLogLevel := {| TriggersToLevel := [] |};
    MetricEventPopBatchSize := 0;
    MetricEventPopDelay := ""
  |};
  Telemetry := {|
    cmd.Listen := ":8092";
    cmd.Graphite := {|
      cmd.Enabled := false;
      cmd.RuntimeStats := false;
      cmd.URI := "localhost:2003";
      cmd.Prefix := "DevOps.Moira";
      cmd.Interval := "60s"
    |};
    cmd.Pprof := {| cmd.ProfilerEnabled := false |}
  |};
  Remote := {|
    cmd.RemoteCheckInterval := "60s";
    cmd.RemoteTimeout := "60s";
    cmd.RemoteMetricsTTL := "7d"
  |};
  Prometheus := {|
    cmd.PrometheusCheckInterval := "60s";
    cmd.PrometheusTimeout := "60s";
    cmd.PrometheusMetricsTTL := "7d";
    cmd.Retries := 1;
    cmd.RetryTimeout := "10s"
  |}
|}.

(** ** What a caller of [getSettings] observes *)

Section Observations.

Variable NumCPU : Z.
Variable to_Duration : string -> time.Duration.

(** The settings that [getSettings] returns when the receiver holds [c]. *)
Definition resolved (c : checkerConfig) (log : list logger.Event)
  : checker.Config :=
  (getSettings NumCPU to_Duration (mkWorld c log)).1.

(** The receiver as [getSettings] leaves it. *)
Definition receiverAfter (c : checkerConfig) (log : list logger.Event)
  : checkerConfig :=
  receiver (getSettings NumCPU to_Duration (mkWorld c log)).2.

(** The sink as [getSettings] leaves it. *)
Definition sinkAfter (c : checkerConfig) (log : list logger.Event)
  : list logger.Event :=
  sink (getSettings NumCPU to_Duration (mkWorld c log)).2.

End Observations.

(** The record of the log-override count, as [getSettings] builds it. *)
Definition overrideCountRecord (n : Z) : logger.Event :=
  logger.mkEvent logger.InfoLevel [("number_of_triggers", n)]
    "Found dynamic log rules in config for some triggers".

(** The name of the field a pointer addresses, which is the category of
    checks it limits; it opens the message of the substitution record. *)
Definition category (p : intField) : string :=
  match p with
  | fMaxParallelChecks => "MaxParallelChecks"
  | fMaxParallelRemoteChecks => "MaxParallelRemoteChecks"
  | fMaxParallelPrometheusChecks => "MaxParallelPrometheusChecks"
  end.

(** The record of one parallelism substitution. *)
Definition substitutionRecord (p : intField) (n : Z) : logger.Event :=
  logger.mkEvent logger.InfoLevel [("number_of_cpu", n)]
    (category p ++ " is not configured, set it to the number of CPU").

(** The substitution records that a receiver holding [c] gives rise to:
    one per zero-valued field of [ps], in the order of [ps]. *)
Definition substitutionRecords (n : Z) (c : checkerConfig)
  (ps : list intField) : list logger.Event :=
  p ← ps; if deref p c =? 0 then [substitutionRecord p n] else [].

(** Whether a record carries an integer field named [key]. *)
Definition hasKey (key : string) (e : logger.Event) : bool :=
  bool_decide (key ∈ (logger.ev_ints e).*1).

(** Modelled from the spec: the error of section 4.1 and 7(a), a
    malformed-duration [ConfigurationError] that names the offending field and
    its raw value. config.go declares no error type, and [getSettings] has
    the single result [*checker.Config]. *)
Inductive ConfigurationError : Type :=
  | MalformedDuration (field raw : string).

(** The outcome of resolution as the design document words it: a
    [ResolvedSettings] or a failure. [getSettings] returns its settings
    unconditionally, so the outcome of the code is always the right
    injection. *)
Definition resolution (NumCPU : Z) (to_Duration : string -> time.Duration)
  (c : checkerConfig) : ConfigurationError + checker.Config :=
  inr (resolved NumCPU to_Duration c []).

(** ** A reference duration conversion

    Modelled from the spec: the duration conversion is github.com/xiam/to's
    [Duration], which is not part of config.go. Section 4.1 words its
    grammar as a compound unit-suffixed notation with sub-second precision,
    supporting at least seconds, minutes, hours and days: one or more
    components, each a run of decimal digits followed by a unit. A string
    outside the grammar has no parse. The theorems below hold for every
    conversion; this one instantiates them at concrete inputs. *)

Module to.

Definition unitOf (u : string) : option time.Duration :=
  if String.eqb u "ns" then Some time.Nanosecond
  else if String.eqb u "us" then Some time.Microsecond
  else if String.eqb u "ms" then Some time.Millisecond
  else if String.eqb u "s" then Some time.Second
  else if String.eqb u "m" then Some time.Minute
  else if String.eqb u "h" then Some time.Hour
  else if String.eqb u "d" then Some (24 * time.Hour)
  else None.

Definition digitOf (c : Ascii.ascii) : option Z :=
  let n := Z.of_N (Ascii.N_of_ascii c) in
  if (48 <=? n) && (n <=? 57) then Some (n - 48) else None.

(** One finished component [v u]. *)
Definition component (v : Z) (u : string) : option time.Duration :=
  unit ← unitOf u; Some (v * unit).

(** [scan s total num u]: [total] is the sum of the finished components,
    [num] the digits of the open component ([None] before its first digit)
    and [u] the unit characters read after them. *)
Fixpoint scan (s : string) (total : time.Duration) (num : option Z)
  (u : string) : option time.Duration :=
  match s with
  | EmptyString =>
      v ← num; d ← component v u; Some (total + d)
  | String c s' =>
      match digitOf c, num with
      | Some k, None => scan s' total (Some k) ""
      | Some k, Some v =>
          if String.eqb u "" then scan s' total (Some (10 * v + k)) ""
          else d ← component v u; scan s' (total + d) (Some k) ""
      | None, None => None
      | None, Some v => scan s' total num (u ++ String c "")
      end
  end.

(** The parse of a duration string, [None] when it is malformed. *)
Definition ParseDuration (s : string) : option time.Duration :=
  scan s 0 None "".

(** The conversion with xiam/to's documented convention for a failed parse:
    the result is the zero duration. *)
Definition Duration (s : string) : time.Duration :=
  default 0 (ParseDuration s).

End to.

(** ** Merging a document over the defaults

    Modelled from the spec: the loader that overlays the externally supplied
    document on [getDefault] lives outside config.go. Section 4.5 states its
    policy: the external value wins when present, the default otherwise. A
    document is a checker section with holes. *)

Record checkerDocument : Type := mkCheckerDocument {
  doc_nodata_check_interval : option string;
  doc_stop_checking_interval : option string;
  doc_check_interval : option string;
  doc_lazy_triggers_check_interval : option string;
  doc_max_parallel_checks : option Z;
  doc_max_parallel_remote_checks : option Z;
  doc_max_parallel_prometheus_checks : option Z;
  doc_set_log_level : option triggersLogConfig;
  doc_metric_event_pop_batch_size : option Z;
  doc_metric_event_pop_delay : option string
}.

(** The document in which every field is absent. *)
Definition emptyDocument : checkerDocument :=
  mkCheckerDocument None None None None None None None None None None.

Definition overlay (d : checkerDocument) (defaults : checkerConfig)
  : checkerConfig :=
  mkCheckerConfig
    (default (NoDataCheckInterval defaults) (doc_nodata_check_interval d))
    (default (StopCheckingInterval defaults) (doc_stop_checking_interval d))
    (default (CheckInterval defaults) (doc_check_interval d))
    (default (LazyTriggersCheckInterval defaults)
       (doc_lazy_triggers_check_interval d))
    (default (MaxParallelChecks defaults) (doc_max_parallel_checks d))
    (default (MaxParallelRemoteChecks defaults)
       (doc_max_parallel_remote_checks d))
    (default (MaxParallelPrometheusChecks defaults)
       (doc_max_parallel_prometheus_checks d))
    (default (SetLogLevel defaults) (doc_set_log_level d))
    (default (MetricEventPopBatchSize defaults)
       (doc_metric_event_pop_batch_size d))
    (default (MetricEventPopDelay defaults) (doc_metric_event_pop_delay d)).

(** The raw checker section at process start: the defaults, overlaid with
    the document when one is supplied. *)
Definition rawSettings (document : option checkerDocument) : checkerConfig :=
  match document with
  | Some d => overlay d (Checker getDefault)
  | None => Checker getDefault
  end.

(** ** Vocabulary of the statements *)

(** The field of [checker.Config] that the struct literal of [getSettings]
    fills from the field a pointer addresses. *)
Definition resolvedField (p : intField) (r : checker.Config) : Z :=
  match p with
  | fMaxParallelChecks => checker.MaxParallelLocalChecks r
  | fMaxParallelRemoteChecks => checker.MaxParallelRemoteChecks r
  | fMaxParallelPrometheusChecks => checker.MaxParallelPrometheusChecks r
  end.

(** The five duration fields of the raw configuration. *)
Inductive durationField : Type :=
  | dNoDataCheckInterval
  | dStopCheckingInterval
  | dCheckInterval
  | dLazyTriggersCheckInterval
  | dMetricEventPopDelay.

(** The yaml tag of a duration field. *)
Definition yamlName (f : durationField) : string :=
  match f with
  | dNoDataCheckInterval => "nodata_check_interval"
  | dStopCheckingInterval => "stop_checking_interval"
  | dCheckInterval => "check_interval"
  | dLazyTriggersCheckInterval => "lazy_triggers_check_interval"
  | dMetricEventPopDelay => "metric_event_pop_delay"
  end.

Definition rawDuration (f : durationField) (c : checkerConfig) : string :=
  match f with
  | dNoDataCheckInterval => NoDataCheckInterval c
  | dStopCheckingInterval => StopCheckingInterval c
  | dCheckInterval => CheckInterval c
  | dLazyTriggersCheckInterval => LazyTriggersCheckInterval c
  | dMetricEventPopDelay => MetricEventPopDelay c
  end.

(** The raw configuration [c] with the duration field [f] set to [s]. *)
Definition withDuration (f : durationField) (s : string) (c : checkerConfig)
  : checkerConfig :=
  mkCheckerConfig
    (if f is dNoDataCheckInterval then s else NoDataCheckInterval c)
    (if f is dStopCheckingInterval then s else StopCheckingInterval c)
    (if f is dCheckInterval then s else CheckInterval c)
    (if f is dLazyTriggersCheckInterval then s else LazyTriggersCheckInterval c)
    (MaxParallelChecks c) (MaxParallelRemoteChecks c)
    (MaxParallelPrometheusChecks c) (SetLogLevel c)
    (MetricEventPopBatchSize c)
    (if f is dMetricEventPopDelay then s else MetricEventPopDelay c).

(** The raw configuration [c] with the concurrency field [p] set to [v]
    (a configured value, as opposed to [assign], a write by the code). *)
Definition withParallelChecks (p : intField) (v : Z) (c : checkerConfig)
  : checkerConfig := assign p v c.

(** The raw configuration [c] with the override list [l]. *)
Definition withTriggers (l : list triggerLogConfig) (c : checkerConfig)
  : checkerConfig :=
  mkCheckerConfig (NoDataCheckInterval c) (StopCheckingInterval c)
    (CheckInterval c) (LazyTriggersCheckInterval c)
    (MaxParallelChecks c) (MaxParallelRemoteChecks c)
    (MaxParallelPrometheusChecks c) (mkTriggersLogConfig l)
    (MetricEventPopBatchSize c) (MetricEventPopDelay c).

(** The occurrences of [id] in an override list, in the order of the list. *)
Definition occurrences (id : string) (l : list triggerLogConfig)
  : list triggerLogConfig :=
  filter (fun v => ID v = id) l.

(** The table of the settings that [getSettings] returns for the raw
    configuration [c] with the override list [l]. *)
Definition overrideTable (NumCPU : Z) (to_Duration : string -> time.Duration)
  (l : list triggerLogConfig) (c : checkerConfig) (log : list logger.Event)
  : gmap string string :=
  checker.LogTriggersToLevel
    (resolved NumCPU to_Duration (withTriggers l c) log).

(** The records that [getSettings] hands to the logger when the receiver
    holds [c]: what it leaves in a sink that was empty. *)
Definition emitted (NumCPU : Z) (to_Duration : string -> time.Duration)
  (c : checkerConfig) : list logger.Event :=
  sinkAfter NumCPU to_Duration c [].

(** The concurrency fields of [c] that hold 0, in the order of the calls. *)
Definition unsetFields (c : checkerConfig) : list intField :=
  filter (fun p => deref p c = 0) concurrencyFields.

#[export] Instance level_eq_dec : EqDecision logger.level.
Proof. solve_decision. Defined.

#[export] Instance Event_eq_dec : EqDecision logger.Event.
Proof. solve_decision. Defined.

(** * Properties *)

(** ** Pointers *)

Lemma deref_assign_same (p : intField) (v : Z) (c : checkerConfig) :
  deref p (assign p v c) = v.
Proof. destruct p; reflexivity. Qed.

Lemma deref_assign_other (p q : intField) (v : Z) (c : checkerConfig) :
  p <> q -> deref q (assign p v c) = deref q c.
Proof. destruct p, q; intros Hpq; try reflexivity; congruence. Qed.

Lemma assign_deref (p : intField) (c : checkerConfig) :
  assign p (deref p c) c = c.
Proof. destruct p, c; reflexivity. Qed.

(** Reads of and writes to the fields of a receiver given by its
    constructor. *)
Ltac run_fields :=
  cbn [receiver sink deref assign
       NoDataCheckInterval StopCheckingInterval CheckInterval
       LazyTriggersCheckInterval MaxParallelChecks MaxParallelRemoteChecks
       MaxParallelPrometheusChecks SetLogLevel MetricEventPopBatchSize
       MetricEventPopDelay].

(** ** The steps of [getSettings], in closed form *)

Section Steps.

Variable NumCPU : Z.
Variable to_Duration : string -> time.Duration.

(** The value a concurrency field holds once it is resolved. *)
Let substituted (v : Z) : Z := if v =? 0 then NumCPU else v.

Lemma handleParallelChecks_nil (w : world) :
  handleParallelChecks NumCPU None w = (false, w).
Proof. reflexivity. Qed.

Lemma handleParallelChecks_ptr (p : intField) (w : world) :
  handleParallelChecks NumCPU (Some p) w =
    if deref p (receiver w) =? 0
    then (true, mkWorld (assign p NumCPU (receiver w)) (sink w))
    else (false, w).
Proof.
  unfold handleParallelChecks, mbind, M_bind, load, store, mret, M_ret.
  destruct (deref p (receiver w) =? 0); reflexivity.
Qed.

Lemma resolveParallelChecks_step (p : intField) (message : string) (w : world) :
  resolveParallelChecks NumCPU p message w =
    if deref p (receiver w) =? 0
    then (tt, mkWorld (assign p NumCPU (receiver w))
                (sink w ++ [logger.mkEvent logger.InfoLevel
                              [("number_of_cpu", NumCPU)] message]))
    else (tt, w).
Proof.
  unfold resolveParallelChecks, mbind, M_bind.
  rewrite handleParallelChecks_ptr.
  destruct (deref p (receiver w) =? 0); [| reflexivity].
  unfold load, Msg; cbn [receiver sink].
  rewrite deref_assign_same. reflexivity.
Qed.


(** [getSettings] run on a receiver [c] and a sink [log]. *)
Lemma getSettings_run (c : checkerConfig) (log : list logger.Event) :
  getSettings NumCPU to_Duration (mkWorld c log) =
    (checker.mkConfig
       (to_Duration (CheckInterval c))
       (to_Duration (LazyTriggersCheckInterval c))
       (to_Duration (NoDataCheckInterval c))
       (time.int64_of_float64
          (time.Seconds (to_Duration (StopCheckingInterval c))))
       (substituted (MaxParallelChecks c))
       (substituted (MaxParallelRemoteChecks c))
       (substituted (MaxParallelPrometheusChecks c))
       (compileLogTriggersToLevel (TriggersToLevel (SetLogLevel c)))
       (MetricEventPopBatchSize c)
       (to_Duration (MetricEventPopDelay c)),
     mkWorld
       (mkCheckerConfig (NoDataCheckInterval c) (StopCheckingInterval c)
          (CheckInterval c) (LazyTriggersCheckInterval c)
          (substituted (MaxParallelChecks c))
          (substituted (MaxParallelRemoteChecks c))
          (substituted (MaxParallelPrometheusChecks c))
          (SetLogLevel c) (MetricEventPopBatchSize c) (MetricEventPopDelay c))
       (log ++
        overrideCountRecord
          (len (compileLogTriggersToLevel (TriggersToLevel (SetLogLevel c))))
        :: substitutionRecords NumCPU c concurrencyFields)).
Proof.
  destruct c as [nd sc ci lz m1 m2 m3 sl bs pd].
  unfold getSettings, mbind, M_bind, this, Msg.
  subst substituted; cbv beta.
  unfold substitutionRecords, concurrencyFields, overrideCountRecord,
    substitutionRecord, category.
  cbn [mbind list_bind]; run_fields.
  rewrite resolveParallelChecks_step; run_fields.
  destruct (m1 =? 0);
    rewrite resolveParallelChecks_step; run_fields;
    destruct (m2 =? 0);
    rewrite resolveParallelChecks_step; run_fields;
    destruct (m3 =? 0); run_fields;
    unfold mret, M_ret; rewrite <- ?app_assoc; reflexivity.
Qed.

End Steps.

(** ** The log-override table *)

Section LogOverrides.

Implicit Types (l : list triggerLogConfig) (v : triggerLogConfig).
Implicit Types (id : string).

Lemma compile_nil : compileLogTriggersToLevel [] = ∅.
Proof. reflexivity. Qed.

(** One more iteration of the loop is one more assignment to the map. *)
Lemma compile_snoc l v :
  compileLogTriggersToLevel (l ++ [v]) =
    <[ID v := Level v]> (compileLogTriggersToLevel l).
Proof. unfold compileLogTriggersToLevel. by rewrite foldl_snoc. Qed.

(** Last write wins: the level under [id] is that of the last entry of the
    list that carries [id], and [id] is no key when no entry carries it. *)
Lemma compile_lookup l id :
  compileLogTriggersToLevel l !! id = Level <$> last (occurrences id l).
Proof.
  unfold occurrences.
  induction l as [|v l IH] using rev_ind; [done |].
  rewrite compile_snoc, filter_app, filter_cons, filter_nil.
  destruct (decide (ID v = id)) as [<-|Hne].
  - by rewrite lookup_insert_eq, last_snoc.
  - by rewrite lookup_insert_ne, app_nil_r.
Qed.

(** The keys are the identifiers of the list. *)
Lemma compile_dom l :
  dom (compileLogTriggersToLevel l) = list_to_set (ID <$> l).
Proof.
  induction l as [|v l IH] using rev_ind; [by rewrite compile_nil, dom_empty_L |].
  rewrite compile_snoc, dom_insert_L, IH, fmap_app.
  change (ID <$> [v]) with [ID v].
  rewrite list_to_set_snoc_L. apply (comm_L (∪)).
Qed.

(** One entry per distinct identifier. *)
Lemma compile_size l :
  size (compileLogTriggersToLevel l) = length (remove_dups (ID <$> l)).
Proof.
  rewrite <- size_dom, compile_dom.
  rewrite <- (size_list_to_set (C := gset string) (remove_dups (ID <$> l)))
    by apply NoDup_remove_dups.
  f_equal. apply set_eq. intros x.
  by rewrite !elem_of_list_to_set, elem_of_remove_dups.
Qed.

Lemma compile_size_le l :
  (size (compileLogTriggersToLevel l) <= length l)%nat.
Proof.
  induction l as [|v l IH] using rev_ind; [done |].
  rewrite compile_snoc, map_size_insert, length_app; cbn [length].
  destruct (compileLogTriggersToLevel l !! ID v); unfold id; lia.
Qed.

End LogOverrides.

(** ** Resolution as a whole *)

Section Claims.

Variable NumCPU : Z.
Variable to_Duration : string -> time.Duration.

Implicit Types (c : checkerConfig) (log : list logger.Event).
Implicit Types (p : intField).

Lemma resolved_concurrency c log p :
  resolvedField p (resolved NumCPU to_Duration c log) =
    if deref p c =? 0 then NumCPU else deref p c.
Proof.
  unfold resolved. rewrite getSettings_run. by destruct p.
Qed.

Lemma resolved_overrides c log :
  checker.LogTriggersToLevel (resolved NumCPU to_Duration c log) =
    compileLogTriggersToLevel (TriggersToLevel (SetLogLevel c)).
Proof. unfold resolved. by rewrite getSettings_run. Qed.

Lemma receiverAfter_concurrency c log p :
  deref p (receiverAfter NumCPU to_Duration c log) =
    if deref p c =? 0 then NumCPU else deref p c.
Proof.
  unfold receiverAfter. rewrite getSettings_run. by destruct p.
Qed.

Lemma sinkAfter_records c log :
  sinkAfter NumCPU to_Duration c log =
    log ++
    overrideCountRecord
      (len (compileLogTriggersToLevel (TriggersToLevel (SetLogLevel c))))
    :: substitutionRecords NumCPU c concurrencyFields.
Proof. unfold sinkAfter. by rewrite getSettings_run. Qed.

(** A substitution record carries the processor count, never the override
    count. *)
Lemma substitutionRecords_keys c (ps : list intField) (e : logger.Event) :
  e ∈ substitutionRecords NumCPU c ps ->
  hasKey "number_of_cpu" e = true /\ hasKey "number_of_triggers" e = false.
Proof.
  unfold substitutionRecords. rewrite list_elem_of_bind.
  intros (p & He & _). destruct (deref p c =? 0).
  - apply list_elem_of_singleton in He as ->. by destruct p.
  - by apply elem_of_nil in He.
Qed.

(** C2: for each of the three concurrency fields, a configured value of
    exactly 0 resolves to the host's logical-processor count, and every
    nonzero configured value, positive or negative, resolves to itself. The
    same holds of the write [handleParallelChecks] performs through its
    pointer, whose result tells whether it substituted. *)
Theorem C2_zero_means_host_count c log :
  (forall p,
     (deref p c = 0 ->
      resolvedField p (resolved NumCPU to_Duration c log) = NumCPU) /\
     (forall v, deref p c = v -> v <> 0 ->
      resolvedField p (resolved NumCPU to_Duration c log) = v)) /\
  (forall p,
     (deref p c = 0 ->
      handleParallelChecks NumCPU (Some p) (mkWorld c log) =
        (true, mkWorld (assign p NumCPU c) log)) /\
     (deref p c <> 0 ->
      handleParallelChecks NumCPU (Some p) (mkWorld c log) =
        (false, mkWorld c log))).
Proof.
  split; intros p.
  - rewrite resolved_concurrency. split.
    + intros ->. reflexivity.
    + intros v <- Hv. apply Z.eqb_neq in Hv. by rewrite Hv.
  - rewrite handleParallelChecks_ptr; cbn [receiver sink]. split.
    + intros ->. reflexivity.
    + intros Hv. apply Z.eqb_neq in Hv. by rewrite Hv.
Qed.

(** C3 (as amended): when the host reports a positive processor count, a
    resolved concurrency field is strictly positive exactly when its
    configured value is not negative; a negative configured value is handed
    on as it is. *)
Theorem C3_positive_iff_not_negative c log :
  0 < NumCPU ->
  forall p,
    (0 < resolvedField p (resolved NumCPU to_Duration c log) <->
     0 <= deref p c) /\
    (deref p c < 0 ->
     resolvedField p (resolved NumCPU to_Duration c log) = deref p c).
Proof.
  intros Hcpu p. rewrite resolved_concurrency.
  destruct (Z.eqb_spec (deref p c) 0) as [->|Hne]; lia.
Qed.

(** C4: the compiled table has exactly one entry per distinct identifier of
    the override list, and the level under an identifier is that of its last
    occurrence; the list [(A, warn); (B, error); (A, debug)] with [A] and [B]
    distinct yields exactly the two keys [A] and [B], with [A] at [debug]
    and [B] at [error]. *)
Theorem C4_last_write_wins c log :
  let l := TriggersToLevel (SetLogLevel c) in
  let m := checker.LogTriggersToLevel (resolved NumCPU to_Duration c log) in
  (forall id, m !! id = Level <$> last (occurrences id l)) /\
  dom m = list_to_set (ID <$> l) /\
  size m = length (remove_dups (ID <$> l)) /\
  (forall A B warn error debug,
     A <> B ->
     l = [mkTriggerLogConfig A warn; mkTriggerLogConfig B error;
          mkTriggerLogConfig A debug] ->
     m !! A = Some debug /\ m !! B = Some error /\
     dom m = {[A; B]} /\ size m = 2%nat).
Proof.
  intros l m. subst m. rewrite resolved_overrides. fold l.
  split; [apply compile_lookup |].
  split; [apply compile_dom |].
  split; [apply compile_size |].
  intros A B warn error debug Hne ->.
  rewrite !compile_lookup, compile_dom, compile_size.
  unfold occurrences; cbn [fmap list_fmap ID Level].
  rewrite !filter_cons, !filter_nil; cbn [ID].
  destruct (decide (A = A)) as [_|?]; [| done].
  destruct (decide (B = B)) as [_|?]; [| done].
  destruct (decide (A = B)) as [?|_]; [done |].
  destruct (decide (B = A)) as [?|_]; [done |].
  split; [done |]. split; [done |]. split.
  - apply set_eq. intros x.
    rewrite elem_of_list_to_set, !elem_of_cons, elem_of_nil.
    rewrite elem_of_union, !elem_of_singleton. tauto.
  - cbn [remove_dups].
    destruct (decide_rel elem_of A [B; A]) as [_|Hn].
    2: { exfalso. apply Hn. rewrite !elem_of_cons. tauto. }
    destruct (decide_rel elem_of B [A]) as [Hb|_].
    { apply list_elem_of_singleton in Hb. congruence. }
    destruct (decide_rel elem_of A []) as [Ha|_]; [by apply elem_of_nil in Ha |].
    reflexivity.
Qed.

Lemma substitutionRecord_inj (p q : intField) (n : Z) :
  substitutionRecord p n = substitutionRecord q n -> p = q.
Proof. destruct p, q; intros H; try reflexivity; discriminate H. Qed.

(** How often the record of [p] occurs among the substitution records of a
    duplicate-free list of pointers. *)
Lemma substitutionRecords_count c (ps : list intField) p :
  NoDup ps ->
  length (filter (fun e => e = substitutionRecord p NumCPU)
            (substitutionRecords NumCPU c ps)) =
    if bool_decide (p ∈ ps) && (deref p c =? 0) then 1%nat else 0%nat.
Proof.
  unfold substitutionRecords.
  induction 1 as [|q ps Hq Hnd IH]; [done |].
  cbn [mbind list_bind]. rewrite filter_app, length_app, IH.
  destruct (decide (p = q)) as [->|Hne].
  - rewrite (bool_decide_eq_false_2 _ Hq).
    rewrite bool_decide_eq_true_2 by apply list_elem_of_here.
    cbn [andb]. destruct (deref q c =? 0); [| done].
    by rewrite filter_cons, decide_True.
  - assert (length (filter (fun e => e = substitutionRecord p NumCPU)
              (if deref q c =? 0 then [substitutionRecord q NumCPU] else []))
            = 0%nat) as ->.
    { destruct (deref q c =? 0); [| done].
      rewrite filter_cons, decide_False; [done |].
      intros Heq. by apply substitutionRecord_inj in Heq. }
    cbn [Nat.add].
    rewrite (bool_decide_ext (p ∈ q :: ps) (p ∈ ps)); [done |].
    rewrite elem_of_cons. tauto.
Qed.

Lemma concurrencyFields_NoDup : NoDup concurrencyFields.
Proof.
  unfold concurrencyFields. repeat constructor;
    rewrite ?elem_of_cons, ?elem_of_nil; intuition discriminate.
Qed.

Lemma concurrencyFields_all p : p ∈ concurrencyFields.
Proof. unfold concurrencyFields. rewrite !elem_of_cons. destruct p; tauto. Qed.

(** C1 (as amended): resolution has no failure; for every raw
    configuration, whatever its duration strings hold, [getSettings] returns
    settings in which each duration field is the conversion's result at the
    raw string, and [StopCheckingIntervalSeconds] is [int64(d.Seconds())]
    for the conversion's result [d] at the raw stop-checking interval; no
    malformed-duration error is produced. *)
Theorem C1_resolution_always_returns c :
  exists r : checker.Config,
    (resolution NumCPU to_Duration c = inr r) /\
    (checker.NoDataCheckInterval r = to_Duration (NoDataCheckInterval c)) /\
    (checker.StopCheckingIntervalSeconds r =
       time.int64_of_float64
         (time.Seconds (to_Duration (StopCheckingInterval c)))) /\
    (checker.CheckInterval r = to_Duration (CheckInterval c)) /\
    (checker.LazyTriggersCheckInterval r =
       to_Duration (LazyTriggersCheckInterval c)) /\
    (checker.MetricEventPopDelay r = to_Duration (MetricEventPopDelay c)) /\
    (forall f, resolution NumCPU to_Duration c <>
                 inl (MalformedDuration (yamlName f) (rawDuration f c))).
Proof.
  unfold resolution, resolved. rewrite getSettings_run.
  eexists. split; [reflexivity |]. by repeat split.
Qed.

(** The seconds that [getSettings] stores for the stop-checking interval:
    [int64(d.Seconds())]. *)
Lemma resolved_stop_checking c log :
  checker.StopCheckingIntervalSeconds (resolved NumCPU to_Duration c log) =
    time.int64_of_float64
      (time.Seconds (to_Duration (StopCheckingInterval c))).
Proof. unfold resolved. by rewrite getSettings_run. Qed.

(** A stop-checking interval of one and a half seconds resolves to 1. *)
Lemma stop_checking_1500ms c log :
  to_Duration (StopCheckingInterval c) = 1500 * time.Millisecond ->
  checker.StopCheckingIntervalSeconds (resolved NumCPU to_Duration c log) = 1.
Proof. intros H. rewrite resolved_stop_checking, H. reflexivity. Qed.

(** An interval of 16777216.999999999 seconds resolves to 16777217: the sum
    [float64(sec) + float64(nsec)/1e9] rounds up to the next whole number
    before the conversion to [int64] truncates. *)
Lemma stop_checking_rounds_up c log :
  to_Duration (StopCheckingInterval c) = 16777216999999999 ->
  checker.StopCheckingIntervalSeconds (resolved NumCPU to_Duration c log)
    = 16777217.
Proof. intros H. rewrite resolved_stop_checking, H. reflexivity. Qed.

(** C6 (as amended): resolution writes into the raw configuration it is
    called on, and only into its concurrency fields: each zero-valued one is
    overwritten with the host's processor count, every other field keeps its
    value, and a configuration without a zero-valued concurrency field is
    left as it was. When the processor count is not zero, resolving the
    configuration again, as the first resolution left it, returns the same
    settings and writes nothing further. *)
Theorem C6_resolution_writes_concurrency_fields c log log' :
  let c' := receiverAfter NumCPU to_Duration c log in
  (forall p, deref p c' = if deref p c =? 0 then NumCPU else deref p c) /\
  (forall f, rawDuration f c' = rawDuration f c) /\
  SetLogLevel c' = SetLogLevel c /\
  MetricEventPopBatchSize c' = MetricEventPopBatchSize c /\
  ((forall p, deref p c <> 0) -> c' = c) /\
  (NumCPU <> 0 ->
   resolved NumCPU to_Duration c' log' = resolved NumCPU to_Duration c log /\
   receiverAfter NumCPU to_Duration c' log' = c').
Proof.
  intros c'. split; [intros p; apply receiverAfter_concurrency |].
  subst c'. unfold receiverAfter, resolved. rewrite !getSettings_run.
  cbn [snd fst receiver].
  split; [by intros [] |]. split; [done |]. split; [done |]. split.
  - intros Hnz.
    pose proof (Hnz fMaxParallelChecks) as H1.
    pose proof (Hnz fMaxParallelRemoteChecks) as H2.
    pose proof (Hnz fMaxParallelPrometheusChecks) as H3.
    cbn [deref] in H1, H2, H3.
    apply Z.eqb_neq in H1, H2, H3. rewrite H1, H2, H3. by destruct c.
  - intros Hcpu. apply Z.eqb_neq in Hcpu.
    run_fields.
    destruct (MaxParallelChecks c =? 0) eqn:E1,
             (MaxParallelRemoteChecks c =? 0) eqn:E2,
             (MaxParallelPrometheusChecks c =? 0) eqn:E3;
      rewrite ?Hcpu, ?E1, ?E2, ?E3; done.
Qed.

(** C7: the checker section of [getDefault] holds the literal defaults, with
    the batch size and the pop delay at their zero values and no override;
    and with no document supplied the raw settings are that section, so they
    resolve to what the defaults resolve to (as they do under a document in
    which every field is absent). *)
Theorem C7_defaults_table log :
  NoDataCheckInterval (Checker getDefault) = "60s" /\
  CheckInterval (Checker getDefault) = "5s" /\
  LazyTriggersCheckInterval (Checker getDefault) = "10m" /\
  StopCheckingInterval (Checker getDefault) = "30s" /\
  MaxParallelChecks (Checker getDefault) = 0 /\
  MaxParallelRemoteChecks (Checker getDefault) = 0 /\
  MetricEventPopBatchSize (Checker getDefault) = 0 /\
  MetricEventPopDelay (Checker getDefault) = "" /\
  TriggersToLevel (SetLogLevel (Checker getDefault)) = [] /\
  resolved NumCPU to_Duration (rawSettings None) log =
    resolved NumCPU to_Duration (Checker getDefault) log /\
  resolved NumCPU to_Duration (rawSettings (Some emptyDocument)) log =
    resolved NumCPU to_Duration (Checker getDefault) log.
Proof. by repeat split. Qed.

(** C8: with an empty override list the compiled table is empty, and of the
    records resolution emits the only one that speaks of overrides is the
    count record, which states a count of 0. *)
Theorem C8_empty_override_list c log :
  TriggersToLevel (SetLogLevel c) = [] ->
  checker.LogTriggersToLevel (resolved NumCPU to_Duration c log) = ∅ /\
  filter (fun e => hasKey "number_of_triggers" e = true)
    (drop (length log) (sinkAfter NumCPU to_Duration c log)) =
    [overrideCountRecord 0].
Proof.
  intros Hnil. rewrite resolved_overrides, sinkAfter_records, Hnil.
  split; [done |].
  rewrite drop_app_length, filter_cons, compile_nil.
  rewrite decide_True by done. f_equal.
  apply elem_of_nil_inv. intros e [Hkey He]%list_elem_of_filter.
  apply substitutionRecords_keys in He as [_ He]. congruence.
Qed.

(** C9: the records that resolution appends to the sink are the count of
    configured log-override identifiers first and the parallelism
    substitutions after it; a substitution record carries the processor
    count under [number_of_cpu] and opens its message with the name of its
    category; the record of a category occurs once when its configured value
    is zero and not at all otherwise. *)
Theorem C9_override_count_comes_first c log :
  let n := len (checker.LogTriggersToLevel
                  (resolved NumCPU to_Duration c log)) in
  let emitted := drop (length log) (sinkAfter NumCPU to_Duration c log) in
  take (length log) (sinkAfter NumCPU to_Duration c log) = log /\
  emitted !! 0%nat = Some (overrideCountRecord n) /\
  n = Z.of_nat (length (remove_dups (ID <$> TriggersToLevel (SetLogLevel c)))) /\
  (forall i e, emitted !! i = Some e ->
     hasKey "number_of_cpu" e = true ->
     (0 < i)%nat /\
     exists p, deref p c = 0 /\ e = substitutionRecord p NumCPU /\
               String.prefix (category p) (logger.ev_msg e) = true) /\
  (forall p,
     length (filter (fun e => e = substitutionRecord p NumCPU) emitted) =
       if deref p c =? 0 then 1%nat else 0%nat).
Proof.
  intros n emitted. subst n emitted.
  rewrite resolved_overrides, sinkAfter_records.
  rewrite drop_app_length, take_app_length.
  split; [done |]. split; [done |].
  split; [unfold len; by rewrite compile_size |].
  split.
  - intros [|i] e Hi Hkey.
    + injection Hi as <-. discriminate Hkey.
    + split; [lia |]. cbn [lookup list_lookup] in Hi.
      apply list_elem_of_lookup_2 in Hi.
      unfold substitutionRecords in Hi.
      apply list_elem_of_bind in Hi as (p & He & _).
      exists p. destruct (Z.eqb_spec (deref p c) 0) as [Hz|_].
      * apply list_elem_of_singleton in He as ->. by destruct p.
      * by apply elem_of_nil in He.
  - intros p. rewrite filter_cons, decide_False by (by destruct p).
    rewrite substitutionRecords_count by apply concurrencyFields_NoDup.
    by rewrite bool_decide_eq_true_2 by apply concurrencyFields_all.
Qed.

(** C10: [getDefault] leaves [MaxParallelPrometheusChecks] at its zero
    value, as it sets the local and remote limits to 0, so under the pure
    defaults all three concurrency fields resolve to the host's
    logical-processor count. *)
Theorem C10_defaults_resolve_to_host_count log :
  MaxParallelPrometheusChecks (Checker getDefault) = 0 /\
  forall p,
    deref p (Checker getDefault) = 0 /\
    resolvedField p (resolved NumCPU to_Duration (Checker getDefault) log)
      = NumCPU.
Proof.
  split; [reflexivity |]. intros p. rewrite resolved_concurrency.
  by destruct p.
Qed.

End Claims.

(** ** Concrete runs

    A host of 8 logical processors, the reference conversion [to.Duration],
    and raw configurations that differ from the defaults in one field. *)

(** C1, counterexample: with ["abc"], a string outside the duration
    grammar, in any of the five duration fields, resolution does not fail
    with a malformed-duration error naming the field: it returns settings.
    For [check_interval] they are the settings of the defaults with a check
    interval of zero. *)
Lemma C1_malformed_duration_is_resolved :
  to.ParseDuration "abc" = None /\
  (forall f : durationField,
     let c := withDuration f "abc" (Checker getDefault) in
     rawDuration f c = "abc" /\
     resolution 8 to.Duration c <> inl (MalformedDuration (yamlName f) "abc") /\
     exists r, resolution 8 to.Duration c = inr r) /\
  resolution 8 to.Duration
    (withDuration dCheckInterval "abc" (Checker getDefault)) =
    inr (checker.mkConfig 0 (10 * time.Minute) (60 * time.Second) 30
           8 8 8 ∅ 0 0).
Proof.
  split; [reflexivity |]. split; [| reflexivity].
  intros f c. split; [by destruct f |]. split; [discriminate |].
  eexists. reflexivity.
Qed.

(** C2, at the defaults (all three limits configured as 0) and at a
    configured local limit of -3. *)
Lemma C2_zero_means_host_count_witness :
  resolvedField fMaxParallelChecks
    (resolved 8 to.Duration (Checker getDefault) []) = 8 /\
  resolvedField fMaxParallelChecks
    (resolved 8 to.Duration
       (withParallelChecks fMaxParallelChecks (-3) (Checker getDefault)) [])
    = -3.
Proof.
  split.
  - destruct (C2_zero_means_host_count 8 to.Duration (Checker getDefault) [])
      as [H _].
    destruct (H fMaxParallelChecks) as [Hzero _]. apply Hzero. reflexivity.
  - destruct (C2_zero_means_host_count 8 to.Duration
                (withParallelChecks fMaxParallelChecks (-3)
                   (Checker getDefault)) [])
      as [H _].
    destruct (H fMaxParallelChecks) as [_ Hnonzero]. apply Hnonzero.
    + reflexivity.
    + discriminate.
Defined.

(** C3, counterexample: a configured local limit of -1 resolves to -1,
    which is not strictly positive. *)
Lemma C3_negative_limit_passes_through :
  checker.MaxParallelLocalChecks
    (resolved 8 to.Duration
       (withParallelChecks fMaxParallelChecks (-1) (Checker getDefault)) [])
    = -1 /\
  ~ 0 < checker.MaxParallelLocalChecks
          (resolved 8 to.Duration
             (withParallelChecks fMaxParallelChecks (-1) (Checker getDefault))
             []).
Proof.
  split; [reflexivity |]. intros H. vm_compute in H. discriminate H.
Qed.

(** C3 (as amended), at the defaults on a host of 8 processors. *)
Lemma C3_positive_iff_not_negative_witness :
  0 < 8 /\
  0 <= deref fMaxParallelRemoteChecks (Checker getDefault) /\
  0 < resolvedField fMaxParallelRemoteChecks
        (resolved 8 to.Duration (Checker getDefault) []).
Proof.
  split; [lia |]. split; [vm_compute; discriminate |].
  destruct (C3_positive_iff_not_negative 8 to.Duration (Checker getDefault) []
              ltac:(lia) fMaxParallelRemoteChecks) as [[_ Hpos] _].
  apply Hpos. vm_compute. discriminate.
Defined.

(** C4, at the override list [("A", warn); ("B", error); ("A", debug)]. *)
Lemma C4_last_write_wins_witness :
  let m :=
    checker.LogTriggersToLevel
      (resolved 8 to.Duration
         (withTriggers
            [mkTriggerLogConfig "A" "warn"; mkTriggerLogConfig "B" "error";
             mkTriggerLogConfig "A" "debug"]
            (Checker getDefault)) []) in
  m !! "A" = Some "debug" /\ m !! "B" = Some "error" /\
  dom m = {["A"; "B"]} /\ size m = 2%nat.
Proof.
  destruct (C4_last_write_wins 8 to.Duration
              (withTriggers
                 [mkTriggerLogConfig "A" "warn"; mkTriggerLogConfig "B" "error";
                  mkTriggerLogConfig "A" "debug"]
                 (Checker getDefault)) []) as (_ & _ & _ & Hexample).
  apply (Hexample "A" "B" "warn" "error" "debug").
  - discriminate.
  - reflexivity.
Defined.

(** C5, at a stop-checking interval of 16777216.999999999 seconds, written
    in nanoseconds: the total seconds truncated toward zero are 16777216,
    and [getSettings] stores 16777217. At ["1500ms"] it stores 1. *)
Theorem C5_long_interval_is_rounded_up :
  to.ParseDuration "16777216999999999ns" = Some 16777216999999999 /\
  Z.quot 16777216999999999 time.Second = 16777216 /\
  checker.StopCheckingIntervalSeconds
    (resolved 8 to.Duration
       (withDuration dStopCheckingInterval "16777216999999999ns"
          (Checker getDefault)) []) = 16777217 /\
  checker.StopCheckingIntervalSeconds
    (resolved 8 to.Duration
       (withDuration dStopCheckingInterval "1500ms" (Checker getDefault)) [])
    = 1.
Proof.
  split; [reflexivity |]. split; [reflexivity |]. split.
  - by apply stop_checking_rounds_up.
  - by apply stop_checking_1500ms.
Qed.

(** C6, counterexample: resolving the defaults overwrites the local limit
    of the raw configuration, 0 before and 8 after. *)
Lemma C6_receiver_is_overwritten :
  MaxParallelChecks (Checker getDefault) = 0 /\
  MaxParallelChecks (receiverAfter 8 to.Duration (Checker getDefault) []) = 8 /\
  receiverAfter 8 to.Duration (Checker getDefault) [] <> Checker getDefault.
Proof. split; [reflexivity |]. split; [reflexivity |]. discriminate. Qed.

(** C6 (as amended), at the defaults: a second resolution returns the
    settings of the first. *)
Lemma C6_resolution_writes_concurrency_fields_witness :
  8 <> 0 /\
  resolved 8 to.Duration
    (receiverAfter 8 to.Duration (Checker getDefault) []) [] =
  resolved 8 to.Duration (Checker getDefault) [].
Proof.
  split; [discriminate |].
  destruct (C6_resolution_writes_concurrency_fields 8 to.Duration
              (Checker getDefault) [] []) as (_ & _ & _ & _ & _ & Hagain).
  apply Hagain. discriminate.
Defined.

(** C8, at the defaults, whose override list is empty. *)
Lemma C8_empty_override_list_witness :
  TriggersToLevel (SetLogLevel (Checker getDefault)) = [] /\
  checker.LogTriggersToLevel
    (resolved 8 to.Duration (Checker getDefault) []) = ∅ /\
  filter (fun e => hasKey "number_of_triggers" e = true)
    (drop (length (@nil logger.Event))
       (sinkAfter 8 to.Duration (Checker getDefault) [])) =
    [overrideCountRecord 0].
Proof.
  split; [reflexivity |].
  apply (C8_empty_override_list 8 to.Duration (Checker getDefault) []).
  reflexivity.
Defined.

(** * Further properties of config.go *)

(** ** [handleParallelChecks] on its own *)

Section ParallelChecks.

Variable NumCPU : Z.

Implicit Types (p q : intField) (po : option intField) (w : world).

(** X1: [handleParallelChecks] answers [true] exactly when its pointer is
    not [nil] and addresses a 0; when it answers [false] it has written
    nothing. *)
Theorem handleParallelChecks_answer po w :
  ((handleParallelChecks NumCPU po w).1 = true <->
   exists p, po = Some p /\ deref p (receiver w) = 0) /\
  ((handleParallelChecks NumCPU po w).1 = false ->
   (handleParallelChecks NumCPU po w).2 = w).
Proof.
  destruct po as [p|].
  - rewrite handleParallelChecks_ptr.
    destruct (Z.eqb_spec (deref p (receiver w)) 0) as [Hz|Hnz]; cbn [fst snd].
    + split; [| discriminate]. split; [eauto | done].
    + split; [| done]. split; [discriminate |].
      intros (p' & [= <-] & Hz). contradiction.
  - rewrite handleParallelChecks_nil; cbn [fst snd].
    split; [| done]. split; [discriminate |]. by intros (p' & [=] & _).
Qed.

(** X2: a call of [handleParallelChecks] writes at most the field its
    pointer addresses: the two other limits, the duration strings, the
    override list, the batch size and the log sink are as before. *)
Theorem handleParallelChecks_frame p w :
  let w' := (handleParallelChecks NumCPU (Some p) w).2 in
  sink w' = sink w /\
  (forall q, q <> p -> deref q (receiver w') = deref q (receiver w)) /\
  (forall f, rawDuration f (receiver w') = rawDuration f (receiver w)) /\
  SetLogLevel (receiver w') = SetLogLevel (receiver w) /\
  MetricEventPopBatchSize (receiver w') = MetricEventPopBatchSize (receiver w).
Proof.
  cbv zeta. rewrite handleParallelChecks_ptr.
  destruct (deref p (receiver w) =? 0); cbn [snd receiver sink];
    [| by repeat split].
  split; [done |]. split.
  - intros q Hq. by apply deref_assign_other.
  - split; [by intros []; destruct p |]. by destruct p.
Qed.

(** X3: on a host whose processor count is not 0 a second call through the
    same pointer finds nothing left to substitute: it answers [false] and
    leaves the state of the first call. *)
Theorem handleParallelChecks_twice po w :
  NumCPU <> 0 ->
  handleParallelChecks NumCPU po (handleParallelChecks NumCPU po w).2 =
    (false, (handleParallelChecks NumCPU po w).2).
Proof.
  intros Hcpu. destruct po as [p|]; [| reflexivity].
  rewrite (handleParallelChecks_ptr NumCPU p w).
  destruct (deref p (receiver w) =? 0) eqn:E; cbn [snd];
    rewrite handleParallelChecks_ptr; cbn [receiver sink].
  - rewrite deref_assign_same. apply Z.eqb_neq in Hcpu. by rewrite Hcpu.
  - by rewrite E.
Qed.

End ParallelChecks.

(** ** The override table that [getSettings] compiles *)

Section OverrideTable.

Variable NumCPU : Z.
Variable to_Duration : string -> time.Duration.

Implicit Types (l : list triggerLogConfig) (v : triggerLogConfig).
Implicit Types (c : checkerConfig) (log : list logger.Event).

Lemma table_compile l c log :
  overrideTable NumCPU to_Duration l c log = compileLogTriggersToLevel l.
Proof. unfold overrideTable. by rewrite resolved_overrides. Qed.

Lemma compile_app l1 l2 :
  compileLogTriggersToLevel (l1 ++ l2) =
    compileLogTriggersToLevel l2 ∪ compileLogTriggersToLevel l1.
Proof.
  induction l2 as [|v l2 IH] using rev_ind.
  - by rewrite app_nil_r, compile_nil, (left_id_L ∅ (∪)).
  - by rewrite app_assoc, !compile_snoc, IH, insert_union_l.
Qed.

(** What the table holds comes from the list. *)
Lemma compile_lookup_Some l id lv :
  compileLogTriggersToLevel l !! id = Some lv ->
  mkTriggerLogConfig id lv ∈ l.
Proof.
  rewrite compile_lookup. unfold occurrences.
  destruct (last _) as [v|] eqn:Hlast; [| discriminate].
  intros [= <-]. apply last_Some_elem_of in Hlast.
  apply list_elem_of_filter in Hlast as [<- Hv]. by destruct v.
Qed.

Lemma compile_lookup_elem l v :
  v ∈ l -> is_Some (compileLogTriggersToLevel l !! ID v).
Proof.
  intros Hv. apply elem_of_dom. rewrite compile_dom.
  apply elem_of_list_to_set, list_elem_of_fmap. eauto.
Qed.

(** With pairwise distinct identifiers the table holds every entry. *)
Lemma compile_lookup_NoDup l v :
  NoDup (ID <$> l) -> v ∈ l ->
  compileLogTriggersToLevel l !! ID v = Some (Level v).
Proof.
  induction l as [|u l IH] using rev_ind; [by intros _ ?%elem_of_nil |].
  rewrite fmap_app, compile_snoc. cbn [fmap list_fmap].
  intros [Hnd [Hdisj _]]%NoDup_app Hv.
  apply elem_of_app in Hv as [Hv|Hv%list_elem_of_singleton].
  - rewrite lookup_insert_ne; [by apply IH |].
    intros Heq. apply (Hdisj (ID v)).
    + apply list_elem_of_fmap. eauto.
    + rewrite Heq. apply list_elem_of_here.
  - subst u. apply lookup_insert_eq.
Qed.

Lemma remove_dups_length_le {A} `{EqDecision A} (xs : list A) :
  (length (remove_dups xs) <= length xs)%nat.
Proof.
  induction xs as [|x xs IH]; [done |].
  cbn [remove_dups length]. destruct (decide_rel elem_of x xs); cbn; lia.
Qed.

Lemma remove_dups_length_NoDup {A} `{EqDecision A} (xs : list A) :
  length (remove_dups xs) = length xs <-> NoDup xs.
Proof.
  induction xs as [|x xs IH]; [by split; [constructor |] |].
  cbn [remove_dups length]. rewrite NoDup_cons.
  pose proof (remove_dups_length_le xs) as Hle.
  destruct (decide_rel elem_of x xs) as [Hin|Hout]; cbn [length].
  - split; [lia | tauto].
  - rewrite <- IH. split; [intros [= ->]; done | intros [_ ->]; done].
Qed.

(** X4: overrides compose by concatenation with the later list on top: the
    table of [l1 ++ l2] is the table of [l2], completed by the table of
    [l1] at the identifiers that [l2] does not mention. *)
Theorem overrides_of_concatenation l1 l2 c log :
  let table l := overrideTable NumCPU to_Duration l c log in
  table (l1 ++ l2) = table l2 ∪ table l1 /\
  (forall id lv, table l2 !! id = Some lv ->
     table (l1 ++ l2) !! id = Some lv) /\
  (forall id, table l2 !! id = None ->
     table (l1 ++ l2) !! id = table l1 !! id).
Proof.
  cbv beta zeta. rewrite !table_compile, compile_app. split; [done |]. split.
  - intros id lv Hid. by apply lookup_union_Some_l.
  - intros id Hid. by apply lookup_union_r.
Qed.

(** X5: the table never has more entries than the list, and it has as many
    exactly when the identifiers of the list are pairwise distinct; this is
    the number that the record [number_of_triggers] reports. *)
Theorem overrides_size l c log :
  let table := overrideTable NumCPU to_Duration l c log in
  (size table <= length l)%nat /\
  (size table = length l <-> NoDup (ID <$> l)) /\
  (sinkAfter NumCPU to_Duration (withTriggers l c) log) !! length log =
    Some (overrideCountRecord (Z.of_nat (size table))).
Proof.
  cbv zeta. rewrite table_compile. split; [apply compile_size_le |]. split.
  - rewrite compile_size, <- remove_dups_length_NoDup. by rewrite length_fmap.
  - rewrite sinkAfter_records.
    rewrite lookup_app_r, Nat.sub_diag by done. reflexivity.
Qed.

(** X6: nothing enters the table but what the list holds, and everything
    the list names is a key: a level found under [id] is the level of an
    entry of the list with that identifier, whatever string it is, and the
    identifier of every entry has a level. *)
Theorem overrides_come_from_the_list l c log :
  let table := overrideTable NumCPU to_Duration l c log in
  (forall id lv, table !! id = Some lv -> mkTriggerLogConfig id lv ∈ l) /\
  (forall v, v ∈ l -> is_Some (table !! ID v)).
Proof.
  cbv zeta. rewrite table_compile. split.
  - intros id lv. apply compile_lookup_Some.
  - intros v. apply compile_lookup_elem.
Qed.

(** X7: when the identifiers of the list are pairwise distinct, every entry
    is found in the table under its identifier with its own level. *)
Theorem overrides_distinct_identifiers l c log v :
  NoDup (ID <$> l) -> v ∈ l ->
  overrideTable NumCPU to_Duration l c log !! ID v = Some (Level v).
Proof. rewrite table_compile. apply compile_lookup_NoDup. Qed.

(** X8: when the identifiers of the list are pairwise distinct, the order
    of the entries does not matter: a permutation of the list compiles to
    the same table. *)
Theorem overrides_order_irrelevant l l' c log :
  NoDup (ID <$> l) -> l ≡ₚ l' ->
  overrideTable NumCPU to_Duration l c log =
    overrideTable NumCPU to_Duration l' c log.
Proof.
  rewrite !table_compile. intros Hnd Hperm.
  assert (NoDup (ID <$> l')) as Hnd' by by rewrite <- Hperm.
  apply map_eq. intros id. apply option_eq. intros lv. split.
  - intros Hl%compile_lookup_Some. rewrite Hperm in Hl.
    by apply (compile_lookup_NoDup l' _ Hnd') in Hl.
  - intros Hl%compile_lookup_Some. rewrite <- Hperm in Hl.
    by apply (compile_lookup_NoDup l _ Hnd) in Hl.
Qed.

End OverrideTable.

(** ** The effects of [getSettings] *)

Section Effects.

Variable NumCPU : Z.
Variable to_Duration : string -> time.Duration.

Implicit Types (c : checkerConfig) (log : list logger.Event).
Implicit Types (p : intField).

Lemma substitutionRecords_filter c (ps : list intField) :
  substitutionRecords NumCPU c ps =
    (fun p => substitutionRecord p NumCPU) <$>
      filter (fun p => deref p c = 0) ps.
Proof.
  unfold substitutionRecords.
  induction ps as [|p ps IH]; [done |].
  cbn [mbind list_bind]. rewrite filter_cons, IH.
  destruct (Z.eqb_spec (deref p c) 0) as [Hz|Hnz].
  - by rewrite decide_True.
  - by rewrite decide_False.
Qed.

Lemma substitutionRecords_unset c :
  substitutionRecords NumCPU c concurrencyFields =
    (fun p => substitutionRecord p NumCPU) <$> unsetFields c.
Proof. apply substitutionRecords_filter. Qed.

(** X9: the logger is used append-only and the sink plays no part in what
    is logged: every earlier record stays in place and the records of this
    call follow. They are one record for the override count and one for each
    concurrency field that holds 0, so between one and four, all at level
    info with a single integer field. *)
Theorem getSettings_appends c log :
  sinkAfter NumCPU to_Duration c log = log ++ emitted NumCPU to_Duration c /\
  length (emitted NumCPU to_Duration c) = S (length (unsetFields c)) /\
  (1 <= length (emitted NumCPU to_Duration c) <= 4)%nat /\
  (forall e, e ∈ emitted NumCPU to_Duration c ->
     logger.ev_level e = logger.InfoLevel /\ length (logger.ev_ints e) = 1%nat).
Proof.
  unfold emitted. rewrite !sinkAfter_records, app_nil_l.
  rewrite substitutionRecords_unset. cbn [length]. rewrite length_fmap.
  split; [done |]. split; [done |]. split.
  - split; [lia |].
    pose proof (length_filter (fun p => deref p c = 0) concurrencyFields).
    unfold unsetFields. cbn [concurrencyFields length] in *. lia.
  - intros e [->|He]%elem_of_cons; [done |].
    apply list_elem_of_fmap in He as (p & -> & _). done.
Qed.


(** X11: on a host whose processor count is not 0, resolving the same
    receiver a second time reports no substitution: the call logs the
    override count and nothing else, whatever the first call logged. *)
Theorem second_resolution_logs_count_only c log :
  NumCPU <> 0 ->
  emitted NumCPU to_Duration (receiverAfter NumCPU to_Duration c log) =
    [overrideCountRecord
       (len (checker.LogTriggersToLevel
               (resolved NumCPU to_Duration c log)))].
Proof.
  intros Hcpu. unfold emitted.
  rewrite sinkAfter_records, app_nil_l, substitutionRecords_unset.
  rewrite resolved_overrides.
  assert (unsetFields (receiverAfter NumCPU to_Duration c log) = []) as ->.
  { apply elem_of_nil_inv. intros p [Hz _]%list_elem_of_filter.
    rewrite receiverAfter_concurrency in Hz.
    destruct (Z.eqb_spec (deref p c) 0); congruence. }
  unfold receiverAfter. rewrite getSettings_run. reflexivity.
Qed.

(** X12: setting one concurrency limit of the raw configuration changes
    that limit of the resolved settings and nothing else: the two other
    limits, the four durations, the seconds of the stop-checking interval,
    the override table and the batch size are the same. *)
Theorem limits_are_independent c log p (v : Z) :
  let r := resolved NumCPU to_Duration c log in
  let r' := resolved NumCPU to_Duration (withParallelChecks p v c) log in
  resolvedField p r' = (if v =? 0 then NumCPU else v) /\
  (forall q, q <> p -> resolvedField q r' = resolvedField q r) /\
  checker.CheckInterval r' = checker.CheckInterval r /\
  checker.LazyTriggersCheckInterval r' = checker.LazyTriggersCheckInterval r /\
  checker.NoDataCheckInterval r' = checker.NoDataCheckInterval r /\
  checker.StopCheckingIntervalSeconds r' =
    checker.StopCheckingIntervalSeconds r /\
  checker.MetricEventPopDelay r' = checker.MetricEventPopDelay r /\
  checker.LogTriggersToLevel r' = checker.LogTriggersToLevel r /\
  checker.MetricEventPopBatchSize r' = checker.MetricEventPopBatchSize r.
Proof.
  cbv zeta. unfold withParallelChecks. split.
  { by rewrite resolved_concurrency, deref_assign_same. }
  split.
  { intros q Hq. rewrite !resolved_concurrency.
    by rewrite deref_assign_other by done. }
  unfold resolved. rewrite !getSettings_run. by destruct p.
Qed.

End Effects.

(** ** Independence of the three substitutions *)

Section Independence.

Variable NumCPU : Z.

(** X13: substitutions through different pointers do not interact: each
    call answers the same whether it runs first or second, and the two
    orders leave the same state. *)
Theorem handleParallelChecks_commute (p q : intField) (w : world) :
  p <> q ->
  let first_p := handleParallelChecks NumCPU (Some p) w in
  let first_q := handleParallelChecks NumCPU (Some q) w in
  let then_q := handleParallelChecks NumCPU (Some q) first_p.2 in
  let then_p := handleParallelChecks NumCPU (Some p) first_q.2 in
  then_q.1 = first_q.1 /\ then_p.1 = first_p.1 /\ then_q.2 = then_p.2.
Proof.
  intros Hpq. cbv zeta. rewrite !(handleParallelChecks_ptr NumCPU _ w).
  destruct w as [[nd sc ci lz m1 m2 m3 sl bs pd] log]. run_fields.
  destruct p, q; try contradiction; run_fields;
    match goal with
    | |- context [?a =? 0] =>
        destruct (a =? 0) eqn:Ea;
        match goal with
        | |- context [?b =? 0] =>
            lazymatch b with
            | a => fail
            | _ => destruct (b =? 0) eqn:Eb
            end
        end
    end;
    cbn [fst snd]; rewrite !handleParallelChecks_ptr; run_fields;
    rewrite ?Ea, ?Eb; done.
Qed.

End Independence.

(** ** Whole seconds of the stop-checking interval

    [getSettings] stores [int64(d.Seconds())]. For a duration of whole
    seconds the detour through [float64] is exact: the count of seconds is
    an integer below [2^53], which binary64 represents, and the fraction is
    zero. *)

Section WholeSeconds.

Lemma digits2_pos_size (p : positive) : digits2_pos p = Pos.size p.
Proof. induction p as [p IH|p IH|]; cbn; by rewrite ?IH. Qed.

Lemma digits2_pos_iter_xO (m k : positive) :
  digits2_pos (Pos.iter xO m k) = (digits2_pos m + k)%positive.
Proof.
  induction k as [|k IH] using Pos.peano_ind.
  - cbn. lia.
  - rewrite Pos.iter_succ. cbn [digits2_pos]. rewrite IH. lia.
Qed.

Lemma iter_xO_value (m k : positive) :
  Z.pos (Pos.iter xO m k) = Z.pos m * 2 ^ Z.pos k.
Proof.
  induction k as [|k IH] using Pos.peano_ind.
  - cbn. lia.
  - rewrite Pos.iter_succ, Pos2Z.inj_xO, IH, Pos2Z.inj_succ.
    rewrite Z.pow_succ_r by lia. lia.
Qed.

Lemma digits2_pos_le (m : positive) (n : Z) :
  0 <= n -> Z.pos m < 2 ^ n -> Z.pos (digits2_pos m) <= n.
Proof.
  intros Hn Hm. rewrite digits2_pos_size.
  pose proof (Pos.size_le m) as Hle.
  apply Pos2Z.pos_le_pos in Hle. rewrite Pos2Z.inj_pow in Hle.
  change (Z.pos 2) with 2 in Hle.
  destruct (Z.le_gt_cases (Z.pos (Pos.size m)) n) as [|Hgt]; [done |].
  exfalso.
  assert (2 ^ (n + 1) <= 2 ^ Z.pos (Pos.size m)) as Hpow
    by (apply Z.pow_le_mono_r; lia).
  rewrite Z.pow_add_r, Z.pow_1_r in Hpow by lia. lia.
Qed.

(** A mantissa of 53 binary digits with an exponent in [-52, 0] needs no
    rounding. *)
Lemma binary_round_aux_canonical (s : bool) (mz : positive) (ez : Z) :
  Z.pos (digits2_pos mz) = 53 -> -52 <= ez <= 0 ->
  binary_round_aux prec emax s (Z.pos mz) ez loc_Exact = S754_finite s mz ez.
Proof.
  intros Hmz Hez. unfold binary_round_aux, shr_fexp.
  cbn [Zdigits2 shr_record_of_loc]. rewrite Hmz.
  assert (fexp prec emax (53 + ez) - ez = 0) as Hfexp.
  { unfold fexp, emin, prec, emax. lia. }
  rewrite Hfexp.
  cbn [shr shr_m loc_of_shr_record round_nearest_even Zdigits2
       shr_record_of_loc].
  rewrite Hmz, Hfexp. cbn [shr shr_m].
  assert ((ez <=? emax - prec) = true) as ->; [| done].
  apply Z.leb_le. unfold emax, prec. lia.
Qed.

(** A positive integer below [2^53] is a binary64 number: its mantissa is
    the integer shifted left by [k] places and its exponent is [- k]. *)
Lemma binary_round_integer (s : bool) (m : positive) :
  Z.pos m < 2 ^ 53 ->
  exists (m' : positive) (k : Z),
    binary_round prec emax s m 0 = S754_finite s m' (- k) /\
    0 <= k <= 52 /\ Z.pos m' = Z.pos m * 2 ^ k.
Proof.
  intros Hm.
  pose proof (digits2_pos_le m 53 ltac:(lia) Hm) as Hd.
  unfold binary_round.
  assert (fexp prec emax (Z.pos (digits2_pos m) + 0)
          = Z.pos (digits2_pos m) - 53) as ->.
  { unfold fexp, emin, prec, emax. lia. }
  unfold shl_align.
  destruct (Z.pos (digits2_pos m) - 53 - 0) as [|d|d] eqn:Hk; [| lia |].
  - exists m, 0. rewrite binary_round_aux_canonical by lia.
    split; [done |]. lia.
  - exists (Pos.iter xO m d), (Z.pos d).
    assert (Z.pos (digits2_pos m) - 53 = - Z.pos d) as -> by lia.
    rewrite binary_round_aux_canonical.
    + split; [done |]. split; [lia |]. apply iter_xO_value.
    + rewrite digits2_pos_iter_xO. lia.
    + lia.
Qed.

Lemma Prim2SF_of_uint63_integer (z : Z) :
  0 < z < 2 ^ 53 ->
  exists (m' : positive) (k : Z),
    Prim2SF (of_uint63 (of_Z z)) = S754_finite false m' (- k) /\
    0 <= k <= 52 /\ Z.pos m' = z * 2 ^ k.
Proof.
  intros Hz. rewrite FloatAxioms.of_uint63_spec, Uint63.of_Z_spec.
  rewrite Z.mod_small.
  2: { split; [lia |]. apply Z.lt_trans with (2 ^ 53); [lia |]. reflexivity. }
  destruct z as [|m|m]; [lia | | lia].
  apply (binary_round_integer false m). lia.
Qed.

Lemma truncate_scaled (m' : positive) (z k : Z) :
  0 <= k -> Z.pos m' = z * 2 ^ k ->
  (if 0 <=? - k then Z.shiftl (Z.pos m') (- k)
   else Z.shiftr (Z.pos m') (- - k)) = z.
Proof.
  intros Hk ->. destruct (Z.leb_spec 0 (- k)).
  - assert (k = 0) as -> by lia.
    change (- 0) with 0. rewrite Z.shiftl_0_r, Z.pow_0_r. lia.
  - rewrite Z.opp_involutive, Z.shiftr_div_pow2 by lia.
    apply Z.div_mul. apply Z.pow_nonzero; lia.
Qed.

(** [int64(float64(z) + 0.0)] is [z] for an integer of magnitude below
    [2^53]. *)
Lemma int64_of_float64_whole (z : Z) :
  - 2 ^ 53 < z < 2 ^ 53 ->
  time.int64_of_float64 (time.float64_of_int64 z + 0)%float = z.
Proof.
  intros Hz. unfold time.int64_of_float64, time.float64_of_int64.
  rewrite FloatAxioms.add_spec.
  change (Prim2SF 0%float) with (S754_zero false).
  destruct (Z.ltb_spec z 0) as [Hneg|Hpos].
  - rewrite FloatAxioms.opp_spec.
    destruct (Prim2SF_of_uint63_integer (- z) ltac:(lia))
      as (m' & k & -> & Hk & Hm').
    cbn [SFopp SF64add SFadd negb].
    rewrite (truncate_scaled m' (- z) k ltac:(lia) Hm'). lia.
  - destruct (Z.eq_dec z 0) as [->|Hnz]; [reflexivity |].
    destruct (Prim2SF_of_uint63_integer z ltac:(lia))
      as (m' & k & -> & Hk & Hm').
    cbn [SF64add SFadd].
    by rewrite (truncate_scaled m' z k ltac:(lia) Hm').
Qed.

Lemma Seconds_whole (d : time.Duration) :
  - 2 ^ 63 <= d < 2 ^ 63 -> Z.rem d time.Second = 0 ->
  time.int64_of_float64 (time.Seconds d) = Z.quot d time.Second.
Proof.
  intros Hd Hrem. unfold time.Seconds. cbv zeta. rewrite Hrem.
  change (time.float64_of_int64 0 / time.float64_of_int64 1000000000)%float
    with 0%float.
  apply int64_of_float64_whole.
  pose proof (Z.quot_rem' d time.Second) as Hqr. rewrite Hrem in Hqr.
  change time.Second with 1000000000 in *. lia.
Qed.

Variable NumCPU : Z.
Variable to_Duration : string -> time.Duration.

(** X14: when the conversion of [stop_checking_interval] yields a whole
    number of seconds (as an [int64] count of nanoseconds), the seconds that
    [getSettings] stores are exactly that number, negative ones included. *)
Theorem stop_checking_whole_seconds (c : checkerConfig)
  (log : list logger.Event) :
  - 2 ^ 63 <= to_Duration (StopCheckingInterval c) < 2 ^ 63 ->
  Z.rem (to_Duration (StopCheckingInterval c)) time.Second = 0 ->
  checker.StopCheckingIntervalSeconds (resolved NumCPU to_Duration c log) =
    Z.quot (to_Duration (StopCheckingInterval c)) time.Second.
Proof.
  intros Hd Hrem. rewrite resolved_stop_checking. by apply Seconds_whole.
Qed.

End WholeSeconds.

(** ** Concrete runs of the further properties *)

(** X3, at the default local limit on a host of 8 processors. *)
Lemma handleParallelChecks_twice_witness :
  8 <> 0 /\
  handleParallelChecks 8 (Some fMaxParallelChecks)
    (handleParallelChecks 8 (Some fMaxParallelChecks)
       (mkWorld (Checker getDefault) [])).2 =
    (false,
     mkWorld (assign fMaxParallelChecks 8 (Checker getDefault)) []).
Proof.
  split; [discriminate |].
  apply (handleParallelChecks_twice 8 (Some fMaxParallelChecks)
           (mkWorld (Checker getDefault) [])).
  discriminate.
Defined.

(** X7, at the list [("A", warn); ("B", error)]. *)
Lemma overrides_distinct_identifiers_witness :
  NoDup (ID <$> [mkTriggerLogConfig "A" "warn";
                 mkTriggerLogConfig "B" "error"]) /\
  overrideTable 8 to.Duration
    [mkTriggerLogConfig "A" "warn"; mkTriggerLogConfig "B" "error"]
    (Checker getDefault) [] !! "B" = Some "error".
Proof.
  assert (NoDup (ID <$> [mkTriggerLogConfig "A" "warn";
                         mkTriggerLogConfig "B" "error"])) as Hnd.
  { apply NoDup_cons. split; [| apply NoDup_singleton].
    rewrite list_elem_of_singleton. discriminate. }
  split; [exact Hnd |].
  apply (overrides_distinct_identifiers 8 to.Duration _ (Checker getDefault)
           [] (mkTriggerLogConfig "B" "error") Hnd).
  apply list_elem_of_further, list_elem_of_here.
Defined.

(** X8, at the list [("A", warn); ("B", error)] and its reversal. *)
Lemma overrides_order_irrelevant_witness :
  overrideTable 8 to.Duration
    [mkTriggerLogConfig "A" "warn"; mkTriggerLogConfig "B" "error"]
    (Checker getDefault) [] =
  overrideTable 8 to.Duration
    [mkTriggerLogConfig "B" "error"; mkTriggerLogConfig "A" "warn"]
    (Checker getDefault) [].
Proof.
  apply overrides_order_irrelevant.
  - apply NoDup_cons. split; [| apply NoDup_singleton].
    rewrite list_elem_of_singleton. discriminate.
  - apply perm_swap.
Defined.

(** X11, at the defaults on a host of 8 processors: the first resolution
    logs four records, the second one. *)
Lemma second_resolution_logs_count_only_witness :
  8 <> 0 /\
  length (emitted 8 to.Duration (Checker getDefault)) = 4%nat /\
  emitted 8 to.Duration
    (receiverAfter 8 to.Duration (Checker getDefault) []) =
    [overrideCountRecord 0].
Proof.
  split; [discriminate |]. split; [reflexivity |].
  apply (second_resolution_logs_count_only 8 to.Duration
           (Checker getDefault) []).
  discriminate.
Defined.

(** X13, at the local and the remote limit of the defaults. *)
Lemma handleParallelChecks_commute_witness :
  (handleParallelChecks 8 (Some fMaxParallelRemoteChecks)
     (handleParallelChecks 8 (Some fMaxParallelChecks)
        (mkWorld (Checker getDefault) [])).2).2 =
  (handleParallelChecks 8 (Some fMaxParallelChecks)
     (handleParallelChecks 8 (Some fMaxParallelRemoteChecks)
        (mkWorld (Checker getDefault) [])).2).2.
Proof.
  apply (handleParallelChecks_commute 8 fMaxParallelChecks
           fMaxParallelRemoteChecks (mkWorld (Checker getDefault) [])).
  discriminate.
Defined.

(** X14, at the default stop-checking interval of thirty seconds. *)
Lemma stop_checking_whole_seconds_witness :
  to.Duration (StopCheckingInterval (Checker getDefault)) = 30 * time.Second /\
  checker.StopCheckingIntervalSeconds
    (resolved 8 to.Duration (Checker getDefault) []) = 30.
Proof.
  split; [reflexivity |].
  apply (stop_checking_whole_seconds 8 to.Duration (Checker getDefault) []).
  - split; vm_compute; [discriminate | reflexivity].
  - reflexivity.
Defined.
